(* ===================================================================== *)
(*  GreenMobilityPass-Bridging-Header.h                                   *)
(*                                                                        *)
(*  The bridging header of the iOS target, embedded as the function it    *)
(*  denotes on the state of the preprocessor of the including             *)
(*  translation unit.  The text of the header is kept line by line,       *)
(*  classified into directives, and run by a small interpreter of the     *)
(*  directives the header uses; the result is shown equal to the          *)
(*  function written out by hand (bridging_header).                       *)
(* ===================================================================== *)

From Stdlib Require Import String Ascii.
From stdpp Require Import gmap strings list fin_maps.

Local Open Scope string_scope.
Local Open Scope list_scope.

(* --------------------------------------------------------------------- *)
(*  Results of fallible processing                                        *)
(* --------------------------------------------------------------------- *)

Inductive pp_error : Type :=
  | FileNotFound (path : string)      (* #import of a header not on the search path *)
  | EndifWithoutIf                    (* #endif with no open conditional *)
  | UnterminatedConditional.          (* end of file inside #ifndef *)

Inductive result (A : Type) : Type :=
  | Ok (a : A)
  | Err (e : pp_error).

Arguments Ok {A} a.
Arguments Err {A} e.

Global Instance result_ret : MRet result := λ A a, Ok a.

Global Instance result_bind : MBind result := λ A B k r,
  match r with
  | Ok a => k a
  | Err e => Err e
  end.

(* --------------------------------------------------------------------- *)
(*  The lines of a header                                                 *)
(* --------------------------------------------------------------------- *)

Inductive directive : Type :=
  | Comment (text : string)              (* // text *)
  | Blank
  | Ifndef (macro : string)              (* #ifndef macro *)
  | Define (macro : string) (body : string)   (* #define macro body *)
  | Undef (macro : string)               (* #undef macro *)
  | Import (path : string)               (* #import <path> *)
  | Endif                                (* #endif *)
  | Code (text : string).                (* anything else: tokens of the unit *)

Global Instance directive_eq_dec : EqDecision directive.
Proof. solve_decision. Defined.

(* A translation unit that includes the header: lines of its own, of the
   kinds above (a unit may undefine a macro, which the header never
   does), and places where the bridging header is included. *)
Inductive item : Type :=
  | Own (d : directive)
  | IncludeHeader.

(* the unit with the inclusions of the header left out *)
Definition own_lines (u : list item) : list directive :=
  omap (λ i, match i with Own d => Some d | IncludeHeader => None end) u.

Fixpoint skip (n : nat) (s : string) : string :=
  match n, s with
  | O, _ => s
  | S k, String _ r => skip k r
  | S _, EmptyString => EmptyString
  end.

(* the characters before the first occurrence of [c] (all, if none) *)
Fixpoint before (c : ascii) (s : string) : string :=
  match s with
  | EmptyString => EmptyString
  | String a r => if Ascii.eqb a c then EmptyString else String a (before c r)
  end.

(* the characters after the first occurrence of [c] (none, if none) *)
Fixpoint after (c : ascii) (s : string) : string :=
  match s with
  | EmptyString => EmptyString
  | String a r => if Ascii.eqb a c then r else after c r
  end.

Definition space : ascii := Ascii.ascii_of_nat 32.
Definition rangle : ascii := Ascii.ascii_of_nat 62.

Definition parse_line (l : string) : directive :=
  if String.eqb l "" then Blank
  else if String.prefix "//" l then Comment (skip 2 l)
  else if String.prefix "#ifndef " l then Ifndef (before space (skip 8 l))
  else if String.prefix "#define " l then
    Define (before space (skip 8 l)) (after space (skip 8 l))
  else if String.prefix "#undef " l then Undef (before space (skip 7 l))
  else if String.prefix "#import <" l then Import (before rangle (skip 9 l))
  else if String.prefix "#endif" l then Endif
  else Code l.

(* --------------------------------------------------------------------- *)
(*  ios/GreenMobilityPass/GreenMobilityPass-Bridging-Header.h, verbatim   *)
(* --------------------------------------------------------------------- *)

Definition header_text : list string :=
  [ "//";
    "//  GreenMobilityPass-Bridging-Header.h";
    "//  GreenMobilityPass";
    "//";
    "//  Bridging header for Swift/Objective-C interoperability";
    "//";
    "";
    "#ifndef GreenMobilityPass_Bridging_Header_h";
    "#define GreenMobilityPass_Bridging_Header_h";
    "";
    "#import <React/RCTBridgeModule.h>";
    "#import <React/RCTEventEmitter.h>";
    "#import <React/RCTViewManager.h>";
    "#import <React/RCTUtils.h>";
    "#import <React/RCTLog.h>";
    "";
    "#endif /* GreenMobilityPass_Bridging_Header_h */" ].

Definition header : list directive := map parse_line header_text.

Definition GreenMobilityPass_Bridging_Header_h : string :=
  "GreenMobilityPass_Bridging_Header_h".

Local Abbreviation guard := GreenMobilityPass_Bridging_Header_h.

Definition RCTBridgeModule : string := "React/RCTBridgeModule.h".
Definition RCTEventEmitter : string := "React/RCTEventEmitter.h".
Definition RCTViewManager : string := "React/RCTViewManager.h".
Definition RCTUtils : string := "React/RCTUtils.h".
Definition RCTLog : string := "React/RCTLog.h".

(* the symbol families of the React framework the header names, in order *)
Definition families : list string :=
  [ RCTBridgeModule; RCTEventEmitter; RCTViewManager; RCTUtils; RCTLog ].

(* the import directives of a header, in order *)
Definition imports_of (ds : list directive) : list string :=
  omap (λ d, match d with Import p => Some p | _ => None end) ds.

(* the macro definitions among some directives, in order *)
Definition defines_of (ds : list directive) : list (string * string) :=
  omap (λ d, match d with Define m b => Some (m, b) | _ => None end) ds.

Definition is_layout (d : directive) : bool :=
  match d with
  | Comment _ | Blank => true
  | _ => false
  end.

(* a header without its comments and blank lines *)
Definition content (ds : list directive) : list directive :=
  filter (λ d, is_layout d = false) ds.

Definition is_code (d : directive) : bool :=
  match d with
  | Code _ => true
  | _ => false
  end.

(* --------------------------------------------------------------------- *)
(*  State of the preprocessor of a translation unit                       *)
(* --------------------------------------------------------------------- *)

Record pp_state : Type := {
  macros : gmap string string;   (* defined macros and their expansions *)
  imported : list string;        (* headers already brought in, oldest first:
                                    the symbol families visible to the unit *)
  tokens : list string           (* code lines passed on to the compiler *)
}.

Definition defined (m : string) (s : pp_state) : Prop :=
  is_Some (macros s !! m).

Definition definedb (m : string) (s : pp_state) : bool :=
  match macros s !! m with
  | Some _ => true
  | None => false
  end.

Definition define (m body : string) (s : pp_state) : pp_state :=
  {| macros := <[m := body]> (macros s);
     imported := imported s;
     tokens := tokens s |}.

Definition undefine (m : string) (s : pp_state) : pp_state :=
  {| macros := delete m (macros s);
     imported := imported s;
     tokens := tokens s |}.

Definition emit (t : string) (s : pp_state) : pp_state :=
  {| macros := macros s;
     imported := imported s;
     tokens := tokens s ++ [t] |}.

(* a unit in which nothing has been defined or imported yet *)
Definition fresh : pp_state :=
  {| macros := ∅; imported := []; tokens := [] |}.

(* while a header is read: the open conditionals (true: the branch is
   taken), the state, and the directives carried out so far *)
Record config : Type := {
  stack : list bool;
  st : pp_state;
  trace : list directive
}.

Section Preprocessor.

(* The React framework is not part of the repository.  [framework p] is
   what the search path holds at <p>: [None] when there is no such
   header, otherwise the macros the header defines, in order.  The
   declarations of a framework header are its symbol family, which the
   unit sees as soon as the header is in [imported]. *)
Variable framework : string → option (list (string * string)).

Definition define_all (ms : list (string * string)) (m : gmap string string)
    : gmap string string :=
  foldl (λ acc kv, <[kv.1 := kv.2]> acc) m ms.

(* the unit after the header at <p>, which defines [ms], was read *)
Definition bring_in (p : string) (ms : list (string * string)) (s : pp_state)
    : pp_state :=
  {| macros := define_all ms (macros s);
     imported := imported s ++ [p];
     tokens := tokens s |}.

(* #import <p>: the file is looked up on the search path first; once
   found, it is brought in unless the unit has it already *)
Definition import (p : string) (s : pp_state) : result pp_state :=
  match framework p with
  | None => Err (FileNotFound p)
  | Some ms =>
      if bool_decide (p ∈ imported s) then Ok s else Ok (bring_in p ms s)
  end.

Definition active (c : config) : bool := forallb id (stack c).

Definition carry_out (d : directive) (c : config) (s' : pp_state) : config :=
  {| stack := stack c; st := s'; trace := trace c ++ [d] |}.

Definition step (d : directive) (c : config) : result config :=
  match d with
  | Comment _ | Blank => Ok c
  | Ifndef m =>
      Ok {| stack := (active c && negb (definedb m (st c))) :: stack c;
            st := st c; trace := trace c |}
  | Endif =>
      match stack c with
      | [] => Err EndifWithoutIf
      | _ :: k => Ok {| stack := k; st := st c; trace := trace c |}
      end
  | Define m b =>
      if active c then Ok (carry_out d c (define m b (st c))) else Ok c
  | Undef m =>
      if active c then Ok (carry_out d c (undefine m (st c))) else Ok c
  | Import p =>
      if active c then s' ← import p (st c); Ok (carry_out d c s')
      else Ok c
  | Code t =>
      if active c then Ok (carry_out d c (emit t (st c))) else Ok c
  end.

Fixpoint exec (ds : list directive) (c : config) : result config :=
  match ds with
  | [] => Ok c
  | d :: r => c' ← step d c; exec r c'
  end.

Definition start (s : pp_state) : config :=
  {| stack := []; st := s; trace := [] |}.

(* reading a whole header from state [s] *)
Definition include (ds : list directive) (s : pp_state)
    : result (pp_state * list directive) :=
  c ← exec ds (start s);
  match stack c with
  | [] => Ok (st c, trace c)
  | _ :: _ => Err UnterminatedConditional
  end.

Definition include_header (s : pp_state) : result (pp_state * list directive) :=
  include header s.

(* the header included [n] times in a row *)
Fixpoint include_times (n : nat) (s : pp_state)
    : result (pp_state * list directive) :=
  match n with
  | O => Ok (s, [])
  | S k =>
      '(s1, t1) ← include_header s;
      '(s2, t2) ← include_times k s1;
      Ok (s2, t1 ++ t2)
  end.

(* One item of a unit.  Next to the configuration of the unit go the
   directives that inclusions of the header have carried out so far.  The
   header is read with conditionals of its own, in the state of the unit,
   and only where the unit is not skipping. *)
Definition run_item (i : item) (ch : config * list directive)
    : result (config * list directive) :=
  match i with
  | Own d => c' ← step d ch.1; Ok (c', ch.2)
  | IncludeHeader =>
      if active ch.1 then
        '(s', t) ← include_header (st ch.1);
        Ok ({| stack := stack ch.1; st := s'; trace := trace ch.1 |}, ch.2 ++ t)
      else Ok ch
  end.

Fixpoint run_unit (u : list item) (ch : config * list directive)
    : result (config * list directive) :=
  match u with
  | [] => Ok ch
  | i :: r => ch' ← run_item i ch; run_unit r ch'
  end.

Fixpoint import_all (ps : list string) (s : pp_state) : result pp_state :=
  match ps with
  | [] => Ok s
  | p :: r => s' ← import p s; import_all r s'
  end.

(* The header as the function it denotes, written out by hand. *)
Definition bridging_header (s : pp_state) : result (pp_state * list directive) :=
  if definedb GreenMobilityPass_Bridging_Header_h s then Ok (s, [])
  else
    let s0 := define GreenMobilityPass_Bridging_Header_h "" s in
    s1 ← import RCTBridgeModule s0;
    s2 ← import RCTEventEmitter s1;
    s3 ← import RCTViewManager s2;
    s4 ← import RCTUtils s3;
    s5 ← import RCTLog s4;
    Ok (s5, Define GreenMobilityPass_Bridging_Header_h "" :: map Import families).

End Preprocessor.

(* what stands between the #ifndef and the #endif of the header *)
Definition guarded_body : list directive :=
  Define guard "" :: map Import families.

(* the guard is defined only in units that already see the five families *)
Definition guard_invariant (s : pp_state) : Prop :=
  defined guard s → ∀ p, p ∈ families → p ∈ imported s.

(* A sample search path on which the five React headers are found; the
   macros are placeholders that make the macro table of the unit grow. *)
Definition react (p : string) : option (list (string * string)) :=
  if bool_decide (p ∈ families) then
    Some (if bool_decide (p = RCTBridgeModule)
          then [("RCT_EXPORT_MODULE", "")] else [])
  else None.

(* the fresh unit after the header was read on that search path *)
Definition bridged : pp_state :=
  {| macros := <[ "RCT_EXPORT_MODULE" := "" ]> (<[ guard := "" ]> ∅);
     imported := families;
     tokens := [] |}.

(* what a unit goes on with after a first inclusion: lines of its own
   and two more inclusions, one of them under a conditional *)
Definition sample_rest : list item :=
  [ Own (Import RCTLog);
    Own (Ifndef "DEBUG");
    IncludeHeader;
    Own Endif;
    Own (Define "APP_NAME" "GreenMobilityPass");
    IncludeHeader ].

(* a unit that includes the header three times *)
Definition sample_unit : list item := IncludeHeader :: sample_rest.

(* the fresh unit at the end of [sample_unit] *)
Definition sample_end : config :=
  {| stack := [];
     st := define "APP_NAME" "GreenMobilityPass" bridged;
     trace := [ Import RCTLog; Define "APP_NAME" "GreenMobilityPass" ] |}.

(* a unit that undefines the guard macro between two inclusions *)
Definition undef_unit : list item :=
  [ IncludeHeader; Own (Undef guard); IncludeHeader ].

(* the fresh unit after the first inclusion and the #undef *)
Definition undef_mid : config :=
  {| stack := [];
     st := undefine guard bridged;
     trace := [ Undef guard ] |}.

(* the fresh unit at the end of [undef_unit] *)
Definition undef_end : config :=
  {| stack := []; st := bridged; trace := [ Undef guard ] |}.

(* a search path without the React framework *)
Definition no_framework (p : string) : option (list (string * string)) := None.

(* a unit whose guard macro was defined before the header is reached *)
Definition predefined : pp_state :=
  define guard "1" fresh.

(* the sample search path with the header at <p> taken away *)
Definition react_without (p : string) (q : string)
    : option (list (string * string)) :=
  if bool_decide (q = p) then None else react q.

(* the sample search path with a header that is none of the five *)
Definition react_and_uikit (q : string) : option (list (string * string)) :=
  if bool_decide (q = "UIKit/UIKit.h") then Some [("UIKIT_EXTERN", "extern")]
  else react q.

(* a unit that has imported UIKit and one of the five families itself *)
Definition partly : pp_state :=
  {| macros := ∅; imported := [ "UIKit/UIKit.h"; RCTUtils ]; tokens := [] |}.

(* a unit that has imported the five families itself *)
Definition preloaded : pp_state :=
  {| macros := ∅; imported := families; tokens := [] |}.

(* a unit in the middle of a conditional of its own that it is skipping *)
Definition skipping : config :=
  {| stack := [false]; st := fresh; trace := [] |}.

(* --------------------------------------------------------------------- *)
(*  The header, parsed                                                    *)
(* --------------------------------------------------------------------- *)

Lemma header_parsed :
  header =
  [ Comment "";
    Comment "  GreenMobilityPass-Bridging-Header.h";
    Comment "  GreenMobilityPass";
    Comment "";
    Comment "  Bridging header for Swift/Objective-C interoperability";
    Comment "";
    Blank;
    Ifndef GreenMobilityPass_Bridging_Header_h;
    Define GreenMobilityPass_Bridging_Header_h "";
    Blank;
    Import RCTBridgeModule;
    Import RCTEventEmitter;
    Import RCTViewManager;
    Import RCTUtils;
    Import RCTLog;
    Blank;
    Endif ].
Proof. vm_compute. reflexivity. Qed.

(* --------------------------------------------------------------------- *)
(*  The interpreter on the header is the hand-written function            *)
(* --------------------------------------------------------------------- *)

Section Facts.

Variable framework : string → option (list (string * string)).

Lemma include_header_unfold s :
  include_header framework s = bridging_header framework s.
Proof.
  unfold include_header, include, bridging_header. rewrite header_parsed.
  destruct s as [m i t]. unfold start.
  cbn [exec step mbind result_bind active stack st trace forallb andb id].
  destruct (definedb guard {| macros := m; imported := i; tokens := t |}) eqn:Hd.
  - cbn. reflexivity.
  - cbn [negb exec step mbind result_bind active stack st trace forallb andb
         id carry_out app].
    destruct (import framework RCTBridgeModule _) as [s1|e]; [|reflexivity].
    cbn [negb exec step mbind result_bind active stack st trace forallb andb
         id carry_out app].
    destruct (import framework RCTEventEmitter _) as [s2|e]; [|reflexivity].
    cbn [negb exec step mbind result_bind active stack st trace forallb andb
         id carry_out app].
    destruct (import framework RCTViewManager _) as [s3|e]; [|reflexivity].
    cbn [negb exec step mbind result_bind active stack st trace forallb andb
         id carry_out app].
    destruct (import framework RCTUtils _) as [s4|e]; [|reflexivity].
    cbn [negb exec step mbind result_bind active stack st trace forallb andb
         id carry_out app].
    destruct (import framework RCTLog _) as [s5|e]; [|reflexivity].
    cbn. reflexivity.
Qed.

Lemma definedb_true m s : definedb m s = true ↔ defined m s.
Proof.
  unfold definedb, defined. destruct (macros s !! m) as [b|]; split; intros H.
  - by exists b.
  - done.
  - done.
  - by destruct H.
Qed.

Lemma definedb_false m s : definedb m s = false ↔ ¬ defined m s.
Proof.
  rewrite <- definedb_true. destruct (definedb m s); split; congruence.
Qed.

Lemma define_defined m b s : defined m (define m b s).
Proof. unfold defined, define; simpl. rewrite lookup_insert_eq. by eexists. Qed.

Lemma define_keeps k m b s : defined k s → defined k (define m b s).
Proof.
  unfold defined, define; simpl. intros H.
  destruct (decide (m = k)) as [->|Hne].
  - rewrite lookup_insert_eq. by eexists.
  - by rewrite lookup_insert_ne.
Qed.

Lemma define_all_keeps ms (m : gmap string string) k :
  is_Some (m !! k) → is_Some (define_all ms m !! k).
Proof.
  unfold define_all. revert m.
  induction ms as [|[k' v] ms IH]; intros m H; simpl; [done|].
  apply IH. destruct (decide (k' = k)) as [->|Hne].
  - rewrite lookup_insert_eq. by eexists.
  - by rewrite lookup_insert_ne.
Qed.

Lemma define_all_other ms (m : gmap string string) k :
  k ∉ ms.*1 → define_all ms m !! k = m !! k.
Proof.
  unfold define_all. revert m.
  induction ms as [|[k' v] ms IH]; intros m H; simpl; [done|].
  simpl in H. apply not_elem_of_cons in H as [Hne H].
  rewrite IH by done. by rewrite lookup_insert_ne.
Qed.

(* the two ways an import can succeed *)
Lemma import_inv p s s' :
  import framework p s = Ok s' →
  (p ∈ imported s ∧ s' = s) ∨
  ((p ∉ imported s) ∧ ∃ ms, framework p = Some ms ∧ s' = bring_in p ms s).
Proof.
  unfold import. destruct (framework p) as [ms|]; [|done].
  case_bool_decide as Hin.
  - intros [= <-]. by left.
  - intros [= <-]. right. split; [done|]. by exists ms.
Qed.

Lemma import_again p s :
  p ∈ imported s → is_Some (framework p) → import framework p s = Ok s.
Proof.
  intros H [ms Hf]. unfold import. rewrite Hf. by rewrite bool_decide_eq_true_2.
Qed.

Lemma import_defined p s s' k :
  import framework p s = Ok s' → defined k s → defined k s'.
Proof.
  intros H Hk. apply import_inv in H as [[_ ->]|(_ & ms & _ & ->)]; [done|].
  unfold defined; simpl. by apply define_all_keeps.
Qed.

Lemma import_tokens p s s' :
  import framework p s = Ok s' → tokens s' = tokens s.
Proof.
  intros H. by apply import_inv in H as [[_ ->]|(_ & ms & _ & ->)].
Qed.

Lemma import_visible p s s' q :
  import framework p s = Ok s' →
  q ∈ imported s' ↔ q ∈ imported s ∨ q = p.
Proof.
  intros H. apply import_inv in H as [[Hin ->]|(_ & ms & _ & ->)]; simpl.
  - split; [by left|]. by intros [?| ->].
  - rewrite elem_of_app, list_elem_of_singleton. done.
Qed.

Lemma import_NoDup p s s' :
  import framework p s = Ok s' → NoDup (imported s) → NoDup (imported s').
Proof.
  intros H Hnd. apply import_inv in H as [[_ ->]|(Hnin & ms & _ & ->)]; [done|].
  simpl. apply NoDup_app. split; [done|]. split.
  - intros x Hx Hp. apply list_elem_of_singleton in Hp as ->. done.
  - apply NoDup_singleton.
Qed.

Lemma import_macros_other p s s' k :
  import framework p s = Ok s' →
  (∀ ms, framework p = Some ms → k ∉ ms.*1) →
  macros s' !! k = macros s !! k.
Proof.
  intros H Hk. apply import_inv in H as [[_ ->]|(_ & ms & Hf & ->)]; [done|].
  simpl. apply define_all_other. by apply Hk.
Qed.

Lemma import_all_defined ps s s' k :
  import_all framework ps s = Ok s' → defined k s → defined k s'.
Proof.
  revert s. induction ps as [|p ps IH]; intros s; simpl.
  - by intros [= <-].
  - destruct (import framework p s) as [s1|e] eqn:Hp; [|done].
    simpl. intros H Hk. apply (IH s1); [done|]. by eapply import_defined.
Qed.

Lemma import_all_tokens ps s s' :
  import_all framework ps s = Ok s' → tokens s' = tokens s.
Proof.
  revert s. induction ps as [|p ps IH]; intros s; simpl.
  - by intros [= <-].
  - destruct (import framework p s) as [s1|e] eqn:Hp; [|done].
    simpl. intros H. rewrite (IH s1) by done. by eapply import_tokens.
Qed.

Lemma import_all_visible ps s s' q :
  import_all framework ps s = Ok s' →
  q ∈ imported s' ↔ q ∈ imported s ∨ q ∈ ps.
Proof.
  revert s. induction ps as [|p ps IH]; intros s; simpl.
  - intros [= <-]. rewrite elem_of_nil. tauto.
  - destruct (import framework p s) as [s1|e] eqn:Hp; [|done].
    simpl. intros H. rewrite (IH s1) by done.
    rewrite (import_visible p s s1) by done.
    rewrite elem_of_cons. tauto.
Qed.

Lemma import_all_NoDup ps s s' :
  import_all framework ps s = Ok s' →
  NoDup (imported s) → NoDup (imported s').
Proof.
  revert s. induction ps as [|p ps IH]; intros s; simpl.
  - by intros [= <-].
  - destruct (import framework p s) as [s1|e] eqn:Hp; [|done].
    simpl. intros H Hnd. apply (IH s1); [done|]. by eapply import_NoDup.
Qed.

(* headers that are all new to the unit are appended in order *)
Lemma import_all_new ps s s' :
  import_all framework ps s = Ok s' →
  NoDup ps → (∀ p, p ∈ ps → p ∉ imported s) →
  imported s' = imported s ++ ps.
Proof.
  revert s. induction ps as [|p ps IH]; intros s; simpl.
  - intros [= <-] _ _. by rewrite app_nil_r.
  - destruct (import framework p s) as [s1|e] eqn:Hp; [|done].
    simpl. intros H Hnd Hnew. apply NoDup_cons in Hnd as [Hp' Hnd].
    apply import_inv in Hp as [[Hin _]|(_ & ms & _ & ->)].
    + exfalso. apply (Hnew p); [left|done].
    + rewrite (IH _ H Hnd); simpl.
      * by rewrite <- app_assoc.
      * intros q Hq. rewrite elem_of_app, list_elem_of_singleton.
        intros [Hin| ->]; [|done]. apply (Hnew q); [by right|done].
Qed.

Lemma import_all_macros_other ps s s' k :
  import_all framework ps s = Ok s' →
  (∀ p ms, p ∈ ps → framework p = Some ms → k ∉ ms.*1) →
  macros s' !! k = macros s !! k.
Proof.
  revert s. induction ps as [|p ps IH]; intros s; simpl.
  - by intros [= <-].
  - destruct (import framework p s) as [s1|e] eqn:Hp; [|done].
    simpl. intros H Hk. rewrite (IH s1); [|done|].
    + apply (import_macros_other p); [done|]. intros ms. apply Hk. by left.
    + intros q ms Hq. apply Hk. by right.
Qed.

End Facts.

Example run_fresh :
  include_header react fresh = Ok (bridged, guarded_body).
Proof. vm_compute. reflexivity. Qed.

Example run_predefined :
  include_header no_framework predefined = Ok (predefined, []).
Proof. vm_compute. reflexivity. Qed.

Example parse_undef :
  parse_line "#undef GreenMobilityPass_Bridging_Header_h" = Undef guard.
Proof. vm_compute. reflexivity. Qed.

Example run_missing :
  include_header no_framework fresh = Err (FileNotFound RCTBridgeModule).
Proof. vm_compute. reflexivity. Qed.

(* --------------------------------------------------------------------- *)
(*  One inclusion of the header                                           *)
(* --------------------------------------------------------------------- *)

Section Header.

Variable framework : string → option (list (string * string)).

Lemma bridging_header_skip s :
  defined guard s → bridging_header framework s = Ok (s, []).
Proof.
  intros H. unfold bridging_header. apply definedb_true in H. by rewrite H.
Qed.

Lemma bridging_header_body s :
  ¬ defined guard s →
  bridging_header framework s =
  (s5 ← import_all framework families (define guard "" s); Ok (s5, guarded_body)).
Proof.
  intros H. unfold bridging_header. apply definedb_false in H. rewrite H.
  unfold families at 2. cbn [import_all].
  destruct (import framework RCTBridgeModule _) as [s1|e]; [|done]. cbn [mbind result_bind].
  destruct (import framework RCTEventEmitter _) as [s2|e]; [|done]. cbn [mbind result_bind].
  destruct (import framework RCTViewManager _) as [s3|e]; [|done]. cbn [mbind result_bind].
  destruct (import framework RCTUtils _) as [s4|e]; [|done]. cbn [mbind result_bind].
  destruct (import framework RCTLog _) as [s5|e]; [|done]. done.
Qed.

Lemma include_header_inv s s1 t :
  include_header framework s = Ok (s1, t) →
  (defined guard s ∧ s1 = s ∧ t = []) ∨
  ((¬ defined guard s) ∧
   import_all framework families (define guard "" s) = Ok s1 ∧
   t = guarded_body).
Proof.
  rewrite include_header_unfold.
  destruct (decide (defined guard s)) as [Hd|Hd].
  - rewrite bridging_header_skip by done. intros [= <- <-]. by left.
  - rewrite bridging_header_body by done.
    destruct (import_all framework families _) as [s5|e]; [|done].
    cbn. intros [= <- <-]. by right.
Qed.

Lemma include_header_defines s s1 t :
  include_header framework s = Ok (s1, t) → defined guard s1.
Proof.
  intros H. apply include_header_inv in H as [(Hd & -> & _)|(_ & H & _)]; [done|].
  eapply import_all_defined; [exact H|]. apply define_defined.
Qed.

Lemma include_times_skip n s :
  defined guard s → include_times framework n s = Ok (s, []).
Proof.
  intros H. induction n as [|n IH]; [done|].
  cbn [include_times]. rewrite include_header_unfold, bridging_header_skip by done.
  cbn. rewrite IH. done.
Qed.

Lemma import_all_total ps s :
  (∀ p, p ∈ ps → is_Some (framework p)) →
  ∃ s', import_all framework ps s = Ok s'.
Proof.
  revert s. induction ps as [|p ps IH]; intros s H; simpl; [by eexists|].
  assert (∃ s1, import framework p s = Ok s1) as [s1 ->].
  { unfold import. destruct (H p) as [ms ->]; [by left|].
    case_bool_decide; by eexists. }
  cbn. apply IH. intros q Hq. apply H. by right.
Qed.

(* with the five React headers on the search path the header is read
   without error, whatever the unit held before *)
Lemma include_header_total s :
  (∀ p, p ∈ families → is_Some (framework p)) →
  ∃ s1 t, include_header framework s = Ok (s1, t).
Proof.
  intros H. rewrite include_header_unfold.
  destruct (decide (defined guard s)) as [Hd|Hd].
  - rewrite bridging_header_skip by done. by eexists _, _.
  - rewrite bridging_header_body by done.
    destruct (import_all_total families (define guard "" s) H) as [s5 ->].
    by eexists _, _.
Qed.

Lemma undefine_keeps k m s : m ≠ k → defined k s → defined k (undefine m s).
Proof.
  unfold defined, undefine; simpl. intros Hne H. by rewrite lookup_delete_ne.
Qed.

Lemma undefine_undefined m s : ¬ defined m (undefine m s).
Proof.
  unfold defined, undefine; simpl. rewrite lookup_delete_eq. by intros [? ?].
Qed.

(* every line but a #undef of the macro keeps a macro defined *)
Lemma step_keeps_defined k d c c' :
  d ≠ Undef k →
  step framework d c = Ok c' → defined k (st c) → defined k (st c').
Proof.
  intros Hne. destruct d as [x| |m|m b|m|p| |x]; cbn [step].
  - by intros [= <-].
  - by intros [= <-].
  - by intros [= <-].
  - destruct (active c); intros [= <-]; [|done]. apply define_keeps.
  - destruct (active c); intros [= <-]; [|done]. apply undefine_keeps.
    by intros ->.
  - destruct (active c); [|by intros [= <-]].
    destruct (import framework p (st c)) as [s'|e] eqn:Hp; [|done].
    cbn. intros [= <-] Hk. cbn. by eapply import_defined.
  - destruct (stack c); [done|]. by intros [= <-].
  - destruct (active c); by intros [= <-].
Qed.

Lemma exec_keeps_defined k ds c c' :
  Undef k ∉ ds →
  exec framework ds c = Ok c' → defined k (st c) → defined k (st c').
Proof.
  revert c. induction ds as [|d ds IH]; intros c Hn; cbn [exec].
  - by intros [= <-].
  - apply not_elem_of_cons in Hn as [Hd Hn].
    destruct (step framework d c) as [c1|e] eqn:Hs; [|done].
    cbn. intros H Hk. apply (IH c1); [done|done|].
    by eapply step_keeps_defined.
Qed.

(* where the guard is defined and the unit does not undefine it, the
   inclusions of the unit might as well be left out: same result, same
   errors *)
Lemma run_unit_defined u c0 h0 :
  Undef guard ∉ own_lines u →
  defined guard (st c0) →
  run_unit framework u (c0, h0) =
  (c ← exec framework (own_lines u) c0; Ok (c, h0)).
Proof.
  revert c0. induction u as [|[d|] u IH]; intros c0 Hn Hd.
  - done.
  - cbn [own_lines omap list_omap] in Hn. fold (own_lines u) in Hn.
    apply not_elem_of_cons in Hn as [Hne Hn].
    cbn [run_unit run_item own_lines omap list_omap exec fst snd].
    destruct (step framework d c0) as [c1|e] eqn:Hs; [|done].
    cbn [mbind result_bind]. apply IH; [done|]. by eapply step_keeps_defined.
  - cbn [own_lines omap list_omap] in Hn. fold (own_lines u) in Hn.
    cbn [run_unit run_item own_lines omap list_omap fst snd].
    destruct (active c0).
    + rewrite include_header_unfold, bridging_header_skip by done.
      cbn [mbind result_bind]. rewrite app_nil_r.
      destruct c0 as [k s tr]. by apply IH.
    + cbn [mbind result_bind]. by apply IH.
Qed.

(* over a unit that does not undefine the guard the header's body is
   carried out at most once, and once it has been the guard is defined *)
Lemma run_unit_body_once u c0 h0 c h :
  Undef guard ∉ own_lines u →
  run_unit framework u (c0, h0) = Ok (c, h) →
  h0 = [] ∨ (h0 = guarded_body ∧ defined guard (st c0)) →
  h = [] ∨ (h = guarded_body ∧ defined guard (st c)).
Proof.
  revert c0 h0. induction u as [|[d|] u IH]; intros c0 h0 Hn.
  - by intros [= <- <-].
  - cbn [own_lines omap list_omap] in Hn. fold (own_lines u) in Hn.
    apply not_elem_of_cons in Hn as [Hne Hn].
    cbn [run_unit run_item fst snd].
    destruct (step framework d c0) as [c1|e] eqn:Hs; [|done].
    cbn [mbind result_bind]. intros H Hinv. apply (IH _ _ Hn H).
    destruct Hinv as [->|[-> Hd]]; [by left|right].
    split; [done|]. by eapply step_keeps_defined.
  - cbn [own_lines omap list_omap] in Hn. fold (own_lines u) in Hn.
    cbn [run_unit run_item fst snd]. destruct (active c0).
    + destruct (include_header framework (st c0)) as [[s' t]|e] eqn:Hi; [|done].
      cbn [mbind result_bind]. intros H Hinv. apply (IH _ _ Hn H). cbn [st].
      pose proof (include_header_defines _ _ _ Hi) as Hd'.
      apply include_header_inv in Hi as [(Hd & -> & ->)|(Hd & _ & ->)].
      * rewrite app_nil_r. done.
      * destruct Hinv as [->|[_ Hd0]]; [|done]. by right.
    + cbn [mbind result_bind]. intros H Hinv. by apply (IH _ _ Hn H).
Qed.

Lemma run_unit_keeps_defined k u c0 h0 c h :
  Undef k ∉ own_lines u →
  run_unit framework u (c0, h0) = Ok (c, h) →
  defined k (st c0) → defined k (st c).
Proof.
  revert c0 h0. induction u as [|[d|] u IH]; intros c0 h0 Hn.
  - by intros [= <- <-].
  - cbn [own_lines omap list_omap] in Hn. fold (own_lines u) in Hn.
    apply not_elem_of_cons in Hn as [Hne Hn].
    cbn [run_unit run_item fst snd].
    destruct (step framework d c0) as [c1|e] eqn:Hs; [|done].
    cbn [mbind result_bind]. intros H Hk. apply (IH _ _ Hn H).
    by eapply step_keeps_defined.
  - cbn [own_lines omap list_omap] in Hn. fold (own_lines u) in Hn.
    cbn [run_unit run_item fst snd]. destruct (active c0).
    + destruct (include_header framework (st c0)) as [[s' t]|e] eqn:Hi; [|done].
      cbn [mbind result_bind]. intros H Hk. apply (IH _ _ Hn H). cbn [st].
      apply include_header_inv in Hi as [(_ & -> & _)|(_ & Hi & _)]; [done|].
      eapply import_all_defined; [exact Hi|]. by apply define_keeps.
    + cbn [mbind result_bind]. intros H Hk. by apply (IH _ _ Hn H).
Qed.

(* a unit made of [n] inclusions and nothing else *)
Lemma run_unit_replicate n s h0 :
  run_unit framework (replicate n IncludeHeader) (start s, h0) =
  ('(s1, t) ← include_times framework n s; Ok (start s1, h0 ++ t)).
Proof.
  revert s h0. induction n as [|n IH]; intros s h0.
  - cbn. by rewrite app_nil_r.
  - cbn [replicate run_unit run_item include_times fst snd start active stack
         forallb st trace].
    destruct (include_header framework s) as [[s1 t1]|e]; [|done].
    cbn [mbind result_bind]. fold (start s1). rewrite IH.
    destruct (include_times framework n s1) as [[s2 t2]|e]; [|done].
    cbn. by rewrite app_assoc.
Qed.

End Header.

Lemma guarded_body_NoDup : NoDup guarded_body.
Proof. apply (bool_decide_unpack (NoDup guarded_body)). vm_compute. exact I. Qed.

Lemma families_NoDup : NoDup families.
Proof. apply (bool_decide_unpack (NoDup families)). vm_compute. exact I. Qed.

Lemma imports_of_guarded_body : imports_of guarded_body = families.
Proof. reflexivity. Qed.

Lemma defines_of_guarded_body : defines_of guarded_body = [(guard, "")].
Proof. reflexivity. Qed.

(* --------------------------------------------------------------------- *)
(*  Properties of the header                                              *)
(* --------------------------------------------------------------------- *)

(** C1. Idempotent inclusion.  From any state of the unit and on any
    search path, when the header is read once without error, reading it
    twice in a row ends without error in the same state (so the unit sees
    the same symbol families) after carrying out the same directives; no
    family is brought into the unit twice, and no directive is carried out
    twice. *)
Theorem inclusion_idempotent fw s s1 t :
  include_header fw s = Ok (s1, t) →
  include_times fw 2 s = Ok (s1, t) ∧
  (NoDup (imported s) → NoDup (imported s1)) ∧
  NoDup t.
Proof.
  intros H. split; [|split].
  - cbn [include_times]. rewrite H. cbn [mbind result_bind].
    rewrite include_header_unfold, bridging_header_skip
      by (by eapply include_header_defines).
    cbn. by rewrite app_nil_r.
  - intros Hnd. apply include_header_inv in H as [(_ & -> & _)|(_ & H & _)]; [done|].
    by apply (import_all_NoDup fw _ _ _ H).
  - apply include_header_inv in H as [(_ & _ & ->)|(_ & _ & ->)].
    + constructor.
    + apply guarded_body_NoDup.
Qed.

Lemma inclusion_idempotent_witness :
  include_header react fresh = Ok (bridged, guarded_body) ∧
  include_times react 2 fresh = Ok (bridged, guarded_body) ∧
  (NoDup (imported fresh) → NoDup (imported bridged)) ∧
  NoDup guarded_body.
Proof.
  split.
  - vm_compute. reflexivity.
  - apply (inclusion_idempotent react fresh bridged guarded_body).
    vm_compute. reflexivity.
Defined.

(** C2. After one inclusion in a unit whose guard macro is not defined,
    the imports carried out are exactly the five families RCTBridgeModule,
    RCTEventEmitter, RCTViewManager, RCTUtils and RCTLog; the unit sees
    what it saw before and these five, nothing else; a unit that had
    imported nothing sees exactly the five. *)
Theorem single_inclusion_families fw s s1 t :
  ¬ defined guard s →
  include_header fw s = Ok (s1, t) →
  imports_of t = families ∧
  (∀ p, p ∈ imported s1 ↔ p ∈ imported s ∨ p ∈ families) ∧
  (imported s = [] → imported s1 = families).
Proof.
  intros Hd H.
  apply include_header_inv in H as [(Hd' & _)|(_ & H & ->)]; [done|].
  split; [reflexivity|]. split.
  - intros p. by rewrite (import_all_visible fw _ _ _ p H).
  - intros Hnil. rewrite (import_all_new fw _ _ _ H); cbn [define imported].
    + by rewrite Hnil.
    + apply families_NoDup.
    + intros p _. rewrite Hnil. apply not_elem_of_nil.
Qed.

Lemma single_inclusion_families_witness :
  (¬ defined guard fresh) ∧
  include_header react fresh = Ok (bridged, guarded_body) ∧
  imports_of guarded_body = families ∧
  (∀ p, p ∈ imported bridged ↔ p ∈ imported fresh ∨ p ∈ families) ∧
  (imported fresh = [] → imported bridged = families).
Proof.
  assert (Hd : ¬ defined guard fresh).
  { intros [b Hb]. vm_compute in Hb. discriminate Hb. }
  split; [exact Hd|]. split.
  - vm_compute. reflexivity.
  - apply (single_inclusion_families react fresh bridged guarded_body Hd).
    vm_compute. reflexivity.
Defined.

(** C3, as the header has it.  The header contains exactly five import
    directives, all different, and one inclusion in a unit whose guard
    macro is not defined carries out five imports; a unit that had
    imported nothing then sees exactly five symbol families. *)
Theorem header_has_five_imports fw s s1 t :
  ¬ defined guard s →
  include_header fw s = Ok (s1, t) →
  length (imports_of header) = 5 ∧
  NoDup (imports_of header) ∧
  length (imports_of t) = 5 ∧
  (imported s = [] → length (imported s1) = 5).
Proof.
  intros Hd H. rewrite header_parsed.
  split; [reflexivity|]. split; [apply families_NoDup|].
  apply include_header_inv in H as [(Hd' & _)|(_ & H & ->)]; [done|].
  split; [reflexivity|].
  intros Hnil. rewrite (import_all_new fw _ _ _ H); cbn [define imported].
  - by rewrite Hnil.
  - apply families_NoDup.
  - intros p _. rewrite Hnil. apply not_elem_of_nil.
Qed.

Lemma header_has_five_imports_witness :
  (¬ defined guard fresh) ∧
  include_header react fresh = Ok (bridged, guarded_body) ∧
  length (imports_of header) = 5 ∧
  NoDup (imports_of header) ∧
  length (imports_of guarded_body) = 5 ∧
  (imported fresh = [] → length (imported bridged) = 5).
Proof.
  assert (Hd : ¬ defined guard fresh).
  { intros [b Hb]. vm_compute in Hb. discriminate Hb. }
  split; [exact Hd|]. split.
  - vm_compute. reflexivity.
  - apply (header_has_five_imports react fresh bridged guarded_body Hd).
    vm_compute. reflexivity.
Defined.

(** C3, as the claim has it, fails: the header does not contain four
    import directives, and including it in a fresh unit does not make
    four symbol families visible. *)
Lemma header_has_not_four_imports :
  length (imports_of header) ≠ 4 ∧
  ¬ (∀ s1 t, include_header react fresh = Ok (s1, t) →
             length (imported s1) = 4).
Proof.
  split.
  - vm_compute. discriminate.
  - intros H. specialize (H bridged guarded_body).
    assert (Hrun : include_header react fresh = Ok (bridged, guarded_body))
      by (vm_compute; reflexivity).
    apply H in Hrun. vm_compute in Hrun. discriminate Hrun.
Qed.







(** C6. Without its comments and blank lines the header is the include
    guard around five imports and nothing else: no line of it is code,
    and an inclusion passes no token of the header's own to the compiler
    and carries out no code line. *)
Theorem header_only_imports fw s :
  content header =
    Ifndef guard :: Define guard "" :: map Import families ++ [Endif] ∧
  Forall (λ d, is_code d = false) header ∧
  match include_header fw s with
  | Ok (s1, t) => tokens s1 = tokens s ∧ Forall (λ d, is_code d = false) t
  | Err _ => True
  end.
Proof.
  split; [by rewrite header_parsed|]. split.
  - rewrite header_parsed. repeat constructor.
  - destruct (include_header fw s) as [[s1 t]|e] eqn:H; [|done].
    apply include_header_inv in H as [(_ & -> & ->)|(_ & H & ->)].
    + by split.
    + split.
      * by rewrite (import_all_tokens fw _ _ _ H).
      * repeat constructor.
Qed.

(** C7. When the guard macro is already defined before the first
    inclusion, the inclusion skips the body: it ends without error on any
    search path, leaves the unit as it was (so no symbol family becomes
    visible) and carries out no directive. *)
Theorem predefined_guard_skips_body fw s :
  defined guard s →
  include_header fw s = Ok (s, []).
Proof.
  intros H. rewrite include_header_unfold. by apply bridging_header_skip.
Qed.

Lemma predefined_guard_skips_body_witness :
  defined guard predefined ∧
  imported predefined = [] ∧
  include_header react predefined = Ok (predefined, []).
Proof.
  assert (Hd : defined guard predefined).
  { exists "1". vm_compute. reflexivity. }
  split; [exact Hd|]. split; [reflexivity|].
  apply (predefined_guard_skips_body react predefined Hd).
Defined.

(** C8. Frame.  When the body is processed, the unit ends in the state
    that the five imports alone produce from the state in which the guard
    macro, with empty expansion, has been added to the macros and nothing
    else has changed; that definition is the only one the header carries
    out; the tokens of the unit are untouched; and every macro that the
    React headers do not define has the value it has after adding the
    guard. *)
Theorem body_frame fw s s1 t :
  ¬ defined guard s →
  include_header fw s = Ok (s1, t) →
  import_all fw families
    {| macros := <[ guard := "" ]> (macros s);
       imported := imported s;
       tokens := tokens s |} = Ok s1 ∧
  defines_of t = [(guard, "")] ∧
  tokens s1 = tokens s ∧
  (∀ m, (∀ p ms, p ∈ families → fw p = Some ms → m ∉ ms.*1) →
        macros s1 !! m = <[ guard := "" ]> (macros s) !! m).
Proof.
  intros Hd H.
  apply include_header_inv in H as [(Hd' & _)|(_ & H & ->)]; [done|].
  split; [exact H|]. split; [reflexivity|]. split.
  - by rewrite (import_all_tokens fw _ _ _ H).
  - intros m Hm. by rewrite (import_all_macros_other fw _ _ _ m H Hm).
Qed.

Lemma body_frame_witness :
  (¬ defined guard fresh) ∧
  include_header react fresh = Ok (bridged, guarded_body) ∧
  import_all react families
    {| macros := <[ guard := "" ]> (macros fresh);
       imported := imported fresh;
       tokens := tokens fresh |} = Ok bridged ∧
  defines_of guarded_body = [(guard, "")] ∧
  tokens bridged = tokens fresh ∧
  (∀ m, (∀ p ms, p ∈ families → react p = Some ms → m ∉ ms.*1) →
        macros bridged !! m = <[ guard := "" ]> (macros fresh) !! m).
Proof.
  assert (Hd : ¬ defined guard fresh).
  { intros [b Hb]. vm_compute in Hb. discriminate Hb. }
  split; [exact Hd|]. split.
  - vm_compute. reflexivity.
  - apply (body_frame react fresh bridged guarded_body Hd).
    vm_compute. reflexivity.
Defined.




(* --------------------------------------------------------------------- *)
(*  Further facts about the imports                                       *)
(* --------------------------------------------------------------------- *)

Lemma filter_agree (P Q : string → Prop)
    `{!∀ x, Decision (P x)} `{!∀ x, Decision (Q x)} (l : list string) :
  (∀ x, x ∈ l → P x ↔ Q x) → filter P l = filter Q l.
Proof.
  induction l as [|x l IH]; intros Hl; [done|].
  rewrite !filter_cons.
  assert (Hx : P x ↔ Q x) by (apply Hl; by left).
  rewrite IH by (intros y Hy; apply Hl; by right).
  destruct (decide (P x)) as [HP|HP], (decide (Q x)) as [HQ|HQ]; tauto.
Qed.

Section Imports.

Variable framework : string → option (list (string * string)).

(* a header is brought in without error exactly when the search path
   holds it *)
Lemma import_ok_iff p s :
  (∃ s', import framework p s = Ok s') ↔ is_Some (framework p).
Proof.
  unfold import. destruct (framework p) as [ms|]; split.
  - intros _. by eexists.
  - intros _. case_bool_decide; by eexists.
  - by intros [s' ?].
  - by intros [ms ?].
Qed.

Lemma import_all_ok_iff ps s :
  (∃ s', import_all framework ps s = Ok s') ↔
  ∀ p, p ∈ ps → is_Some (framework p).
Proof.
  revert s. induction ps as [|p ps IH]; intros s; cbn [import_all].
  - split; [|by eexists]. intros _ p Hp. by apply elem_of_nil in Hp.
  - destruct (import framework p s) as [s1|e] eqn:Hp; cbn [mbind result_bind].
    + assert (Hok : is_Some (framework p))
        by (apply (import_ok_iff p s); by eexists).
      rewrite IH. split.
      * intros H q Hq. apply elem_of_cons in Hq as [->|Hq]; [done|by apply H].
      * intros H q Hq. apply H. by right.
    + split; [by intros [s' ?]|]. intros H.
      assert (∃ s', import framework p s = Ok s') as [s' Hs']
        by (apply import_ok_iff, H; by left).
      congruence.
Qed.

(* the only way the imports fail *)
Lemma import_all_err ps s e :
  import_all framework ps s = Err e →
  ∃ pre p post,
    ps = pre ++ p :: post ∧ e = FileNotFound p ∧
    framework p = None ∧
    ∀ q, q ∈ pre → is_Some (framework q).
Proof.
  revert s. induction ps as [|p ps IH]; intros s; cbn [import_all]; [done|].
  destruct (import framework p s) as [s1|e1] eqn:Hp; cbn [mbind result_bind].
  - intros H. destruct (IH s1 H) as (pre & p' & post & -> & -> & Hf & Hpre).
    assert (Hok : is_Some (framework p))
      by (apply (import_ok_iff p s); by eexists).
    exists (p :: pre), p', post. split; [done|]. split; [done|].
    split; [done|].
    intros q Hq. apply elem_of_cons in Hq as [->|Hq]; [done|by apply Hpre].
  - intros [= <-]. unfold import in Hp.
    destruct (framework p) as [ms|] eqn:Hf.
    { by case_bool_decide. }
    injection Hp as <-.
    exists [], p, ps. repeat split; try done.
    intros q Hq. by apply elem_of_nil in Hq.
Qed.

(* headers the unit has already are passed over *)
Lemma import_all_noop ps s :
  (∀ p, p ∈ ps → p ∈ imported s) →
  (∀ p, p ∈ ps → is_Some (framework p)) →
  import_all framework ps s = Ok s.
Proof.
  induction ps as [|p ps IH]; intros H Hf; cbn [import_all]; [done|].
  rewrite import_again by ((apply H || apply Hf); by left).
  cbn [mbind result_bind].
  apply IH; intros q Hq; [apply H|apply Hf]; by right.
Qed.

(* what the unit has is kept, in order; what is new comes after it, in the
   order of the imports *)
Lemma import_all_imported ps s s' :
  NoDup ps →
  import_all framework ps s = Ok s' →
  imported s' = imported s ++ filter (λ p, p ∉ imported s) ps.
Proof.
  revert s. induction ps as [|p ps IH]; intros s Hnd; cbn [import_all].
  - intros [= <-]. by rewrite app_nil_r.
  - apply NoDup_cons in Hnd as [Hp' Hnd].
    destruct (import framework p s) as [s1|e] eqn:Hp; [|done].
    cbn [mbind result_bind]. intros H. rewrite (IH s1 Hnd H).
    apply import_inv in Hp as [[Hin ->]|(Hnin & ms & _ & ->)].
    + by rewrite filter_cons_False by (intros Hc; by apply Hc).
    + rewrite filter_cons_True by done. cbn [bring_in imported].
      rewrite <- app_assoc. cbn [app]. do 2 f_equal.
      apply filter_agree. intros q Hq.
      rewrite elem_of_app, list_elem_of_singleton. split.
      * intros Hn Hin. apply Hn. by left.
      * intros Hn [Hin| ->]; [by apply Hn|done].
Qed.

End Imports.

(* the imports read the search path at their own headers only *)
Lemma import_all_agree fw fw' ps s :
  (∀ p, p ∈ ps → fw p = fw' p) →
  import_all fw ps s = import_all fw' ps s.
Proof.
  revert s. induction ps as [|p ps IH]; intros s H; cbn [import_all]; [done|].
  assert (Hp : import fw p s = import fw' p s).
  { unfold import. by rewrite (H p) by (by left). }
  rewrite <- Hp. destruct (import fw p s) as [s1|e] eqn:Hs; [|done].
  cbn [mbind result_bind]. apply IH. intros q Hq. apply H. by right.
Qed.

(* --------------------------------------------------------------------- *)
(*  Further properties of the header                                      *)
(* --------------------------------------------------------------------- *)




(** X3. Order of the imports.  After an inclusion that runs the body, the
    headers the unit had imported are still there, in their order,
    followed by those of the five families the unit lacked, in the order
    of the header. *)
Theorem inclusion_appends_missing_families fw s s1 t :
  ¬ defined guard s →
  include_header fw s = Ok (s1, t) →
  imported s1 = imported s ++ filter (λ p, p ∉ imported s) families.
Proof.
  intros Hd H.
  apply include_header_inv in H as [(Hd' & _)|(_ & H & _)]; [done|].
  by rewrite (import_all_imported fw _ _ _ families_NoDup H).
Qed.

Lemma inclusion_appends_missing_families_witness :
  (¬ defined guard partly) ∧
  include_header react partly
    = Ok ({| macros := macros bridged;
             imported := [ "UIKit/UIKit.h"; RCTUtils; RCTBridgeModule;
                           RCTEventEmitter; RCTViewManager; RCTLog ];
             tokens := [] |}, guarded_body) ∧
  [ "UIKit/UIKit.h"; RCTUtils; RCTBridgeModule;
    RCTEventEmitter; RCTViewManager; RCTLog ]
  = imported partly ++ filter (λ p, p ∉ imported partly) families.
Proof.
  assert (Hd : ¬ defined guard partly).
  { intros [b Hb]. vm_compute in Hb. discriminate Hb. }
  split; [exact Hd|]. split; [vm_compute; reflexivity|].
  apply (inclusion_appends_missing_families react partly
           {| macros := macros bridged;
              imported := [ "UIKit/UIKit.h"; RCTUtils; RCTBridgeModule;
                            RCTEventEmitter; RCTViewManager; RCTLog ];
              tokens := [] |} guarded_body Hd).
  vm_compute. reflexivity.
Defined.

(** X4. Any number of inclusions is one inclusion.  Including the header
    one or more times in a row has the very result of including it once:
    the same state and the same directives carried out when it succeeds,
    the same error when it fails. *)
Theorem inclusions_collapse fw n s :
  include_times fw (S n) s = include_header fw s.
Proof.
  cbn [include_times].
  destruct (include_header fw s) as [[s1 t]|e] eqn:H; [|done].
  cbn [mbind result_bind].
  rewrite include_times_skip by (by eapply include_header_defines).
  cbn. by rewrite app_nil_r.
Qed.

(** X5. The conditionals of the header are balanced.  Reading the lines
    of the header in place, inside whatever conditionals the unit has
    open, is the same as including it as a file of its own: where the
    unit is skipping nothing happens and nothing can fail; elsewhere the
    state and the directives carried out are those of the inclusion, and
    the open conditionals of the unit are left as they were. *)
Theorem header_in_place fw c :
  exec fw header c =
  if active c then
    '(s1, t) ← include_header fw (st c);
    Ok {| stack := stack c; st := s1; trace := trace c ++ t |}
  else Ok c.
Proof.
  rewrite include_header_unfold. unfold bridging_header.
  rewrite header_parsed. destruct c as [k s tr].
  cbn [exec step mbind result_bind stack st trace].
  unfold active. cbn [stack forallb id].
  destruct (forallb id k) eqn:Hk; cbn [andb]; [|done].
  destruct (definedb guard s) eqn:Hd; cbn [negb andb].
  { cbn. by rewrite app_nil_r. }
  cbn [carry_out stack st trace mbind result_bind forallb id andb].
  rewrite Hk.
  destruct (import fw RCTBridgeModule _) as [s1|e]; [|done].
  cbn [carry_out stack st trace mbind result_bind forallb id andb].
  rewrite Hk.
  destruct (import fw RCTEventEmitter _) as [s2|e]; [|done].
  cbn [carry_out stack st trace mbind result_bind forallb id andb].
  rewrite Hk.
  destruct (import fw RCTViewManager _) as [s3|e]; [|done].
  cbn [carry_out stack st trace mbind result_bind forallb id andb].
  rewrite Hk.
  destruct (import fw RCTUtils _) as [s4|e]; [|done].
  cbn [carry_out stack st trace mbind result_bind forallb id andb].
  rewrite Hk.
  destruct (import fw RCTLog _) as [s5|e]; [|done].
  cbn. by rewrite <- !app_assoc.
Qed.

Example run_skipping :
  exec no_framework header skipping = Ok skipping.
Proof. vm_compute. reflexivity. Qed.

(** X6. A unit that brought the React headers in itself.  Where the guard
    macro is not defined, the unit has imported the five headers already
    and the search path holds them, the inclusion does nothing but define
    the guard macro, with empty expansion: no header is read again. *)
Theorem inclusion_after_own_imports fw s :
  ¬ defined guard s →
  (∀ p, p ∈ families → p ∈ imported s) →
  (∀ p, p ∈ families → is_Some (fw p)) →
  include_header fw s = Ok (define guard "" s, guarded_body).
Proof.
  intros Hd H Hf. rewrite include_header_unfold, bridging_header_body by done.
  by rewrite import_all_noop.
Qed.

Lemma inclusion_after_own_imports_witness :
  (¬ defined guard preloaded) ∧
  (∀ p, p ∈ families → p ∈ imported preloaded) ∧
  (∀ p, p ∈ families → is_Some (react p)) ∧
  include_header react preloaded
    = Ok (define guard "" preloaded, guarded_body).
Proof.
  assert (Hd : ¬ defined guard preloaded).
  { intros [b Hb]. vm_compute in Hb. discriminate Hb. }
  assert (Hi : ∀ p, p ∈ families → p ∈ imported preloaded)
    by (intros p Hp; exact Hp).
  assert (Hf : ∀ p, p ∈ families → is_Some (react p)).
  { intros p Hp. unfold react. rewrite bool_decide_eq_true_2 by exact Hp.
    eexists. reflexivity. }
  split; [exact Hd|]. split; [exact Hi|]. split; [exact Hf|].
  apply (inclusion_after_own_imports react preloaded Hd Hi Hf).
Defined.


